(** * app.py: the student list application

    A shallow embedding of the two view functions of [app.py] ([homepage] and
    [add_student]), of the [Student] model and of the [setup] hook, together
    with the parts of Flask, Flask-SQLAlchemy and SQLite they call: the form
    of a request, the session of the ORM, the table [student] of
    [students.db], standard output and the routing of a request.

    Python code that raises is modelled in a state and exception monad whose
    state survives a raise, as Python's does: what a [try] block did before it
    raised is still done when the [except] clause runs. *)

From Stdlib Require Import List Ascii String ZArith Bool Lia DecimalString.
Import ListNotations.
Open Scope string_scope.
Open Scope list_scope.

(** ** The data *)

(** [class Student(db.Model)]: the mapped object.  Both attributes can be
    [None] in Python; [id] is [None] until the object is flushed. *)
Record Student : Type := mkStudent {
  id : option Z;
  name : option string
}.

(** A row of the table [student (id INTEGER PRIMARY KEY, name VARCHAR(255)
    NOT NULL)].  A column value of SQL can be NULL ([None]); that [name] is
    never NULL in a stored row is a constraint the engine checks on INSERT,
    not a property of the type. *)
Record Row : Type := mkRow {
  row_id : Z;
  row_name : option string
}.

(** [db.String(255)] and [nullable=False] of the column [name].  SQLite gives
    VARCHAR(n) the affinity TEXT and never looks at n: the length is declared
    and not enforced. *)
Definition name_length : nat := 255.
Definition name_nullable : bool := false.

(** The SQL statement an error of the database came from. *)
Inductive Statement : Type :=
| CREATE_TABLE
| INSERT_INTO (s : Student)
| SELECT_FROM.

(** The exceptions the modelled calls raise, all subclasses of Python's
    [Exception].  An error of the database holds the message of the SQLite
    driver and the statement that failed, the two things SQLAlchemy words its
    text from. *)
Inductive Exception : Type :=
| BadRequestKeyError (key : string)
| IntegrityError (orig : string) (statement : Statement)
| OperationalError (orig : string) (statement : Statement)
| TemplateNotFound (template : string)
| BuildError (endpoint : string).

(** [str(e)]: the text of an exception is worded by the library that raised
    it (werkzeug, SQLAlchemy with its SQL, parameters and link, Jinja) and
    differs between their versions; the application is modelled for every
    wording. *)
Class Wording : Type := str : Exception -> string.

(** What [print] wrote: the list of students of [homepage] (printed through
    its repr) or a line of text. *)
Inductive Output : Type :=
| PrintStudents (students : list Student)
| PrintLine (line : string).

(** The method of a request; [Other] is any verb that is none of the four. *)
Inductive Method : Type :=
| GET
| HEAD
| POST
| OPTIONS
| Other (verb : string).

(** A request: its method, its path (as werkzeug matches it) and its parsed
    form, the pairs of the form-encoded body in the order they were sent (a
    MultiDict: a key can occur more than once). *)
Record Request : Type := mkRequest {
  method : Method;
  path : string;
  form : list (string * string)
}.

(** The rendered page of [index.html]: the names it lists, in order. *)
Definition Page : Type := list (option string).

(** A response.  [StaticFile f] is whatever Flask's static view answers for
    the file [f] (the file, or 404 when there is none), [Options200] the
    automatic answer to OPTIONS, [WithoutBody r] the answer to a HEAD: the
    response [r] of the view, sent without its body. *)
Inductive Response : Type :=
| Ok200 (page : Page)
| Redirect302 (location : string)
| StaticFile (filename : string)
| Options200
| NotFound404
| MethodNotAllowed405
| InternalServerError500
| WithoutBody (r : Response).

(** The storage engine as one request finds it: [Failing m] is a database
    file that cannot be written (locked, read-only, disk full); a statement
    that writes then fails in the driver with the message [m]. *)
Inductive Engine : Type :=
| Healthy
| Failing (message : string).

(** What outlives a request: the table [student] of [students.db] ([None]
    while the table has not been created), standard output, and whether the
    application has served its first request. *)
Record World : Type := mkWorld {
  students_db : option (list Row);
  stdout : list Output;
  got_first_request : bool
}.

(** The state a view function runs in: the request and the engine of this
    request, the pending objects of [db.session] (a scoped session: created
    empty for the request and removed when it ends) and the world. *)
Record Ctx : Type := mkCtx {
  request : Request;
  engine : Engine;
  session : list Student;
  world : World
}.

Definition rows (w : World) : list Row :=
  match students_db w with
  | Some rs => rs
  | None => []
  end.

Definition set_students_db (db : option (list Row)) (w : World) : World :=
  mkWorld db (stdout w) (got_first_request w).

Definition set_world (w : World) (c : Ctx) : Ctx :=
  mkCtx (request c) (engine c) (session c) w.

Definition set_session (s : list Student) (c : Ctx) : Ctx :=
  mkCtx (request c) (engine c) s (world c).

(** ** The monad of Python statements *)

Inductive Result (A : Type) : Type :=
| Return (a : A)
| Raise (e : Exception).
Arguments Return {A} a.
Arguments Raise {A} e.

Definition M (A : Type) : Type := Ctx -> Result A * Ctx.

Definition ret {A : Type} (a : A) : M A := fun c => (Return a, c).

Definition raise {A : Type} (e : Exception) : M A := fun c => (Raise e, c).

Definition bind {A B : Type} (m : M A) (k : A -> M B) : M B :=
  fun c =>
    match m c with
    | (Return a, c') => k a c'
    | (Raise e, c') => (Raise e, c')
    end.

(** [try: body except Exception as e: handler e] *)
Definition try_except {A : Type} (body : M A) (handler : Exception -> M A) : M A :=
  fun c =>
    match body c with
    | (Return a, c') => (Return a, c')
    | (Raise e, c') => handler e c'
    end.

Notation "x <- m ;; k" := (bind m (fun x => k))
  (at level 61, m at next level, right associativity).
Notation "m ;;; k" := (bind m (fun _ => k))
  (at level 61, right associativity).

(** ** The library calls *)

(** [print(x)] *)
Definition print (o : Output) : M unit :=
  fun c =>
    let w := world c in
    (Return tt,
     set_world (mkWorld (students_db w) (stdout w ++ [o]) (got_first_request w)) c).

(** The repr of a persistent [Student], as Flask-SQLAlchemy's [Model.__repr__]
    gives it: the class and the primary key.  (The repr of an object without
    an id holds its address and is not modelled.) *)
Definition Student_repr (s : Student) : option string :=
  match id s with
  | Some i => Some ("<Student " ++ NilZero.string_of_int (Z.to_int i) ++ ">")%string
  | None => None
  end.

(** The repr of a list: the reprs of its items between brackets, separated
    by a comma and a blank. *)
Fixpoint reprs (students : list Student) : option (list string) :=
  match students with
  | [] => Some []
  | s :: rest =>
      match Student_repr s, reprs rest with
      | Some t, Some ts => Some (t :: ts)
      | _, _ => None
      end
  end.

Definition list_repr (students : list Student) : option string :=
  match reprs students with
  | Some ts => Some ("[" ++ String.concat ", " ts ++ "]")%string
  | None => None
  end.

(** The text an output put on standard output. *)
Definition printed (o : Output) : option string :=
  match o with
  | PrintStudents students => list_repr students
  | PrintLine line => Some line
  end.

(** The first value of a key in a form, as MultiDict's [__getitem__] finds it. *)
Fixpoint form_lookup (key : string) (f : list (string * string)) : option string :=
  match f with
  | [] => None
  | (k, v) :: rest => if String.eqb k key then Some v else form_lookup key rest
  end.

(** [request.form[key]]: a missing key raises werkzeug's BadRequestKeyError,
    a KeyError that is also an HTTPException, hence an [Exception]. *)
Definition request_form_getitem (key : string) : M string :=
  fun c =>
    match form_lookup key (form (request c)) with
    | Some v => (Return v, c)
    | None => (Raise (BadRequestKeyError key), c)
    end.

(** [Student(name=name)]: the declarative constructor sets the attributes it
    is given and leaves [id] unset. *)
Definition Student_init (n : string) : Student :=
  {| id := None; name := Some n |}.

(** [db.session.add(student)] *)
Definition session_add (s : Student) : M unit :=
  fun c => (Return tt, set_session (session c ++ [s]) c).

(** The rowid SQLite gives a row inserted without one: one more than the
    largest in use, 1 in an empty table (the table has no AUTOINCREMENT;
    the 64-bit limit of rowids is not modelled). *)
Definition next_rowid (rs : list Row) : Z :=
  match rs with
  | [] => 1
  | r :: rest => 1 + fold_left Z.max (map row_id rest) (row_id r)
  end.

(** A table is kept in rowid order, the order in which a SELECT without
    ORDER BY scans it. *)
Fixpoint insert_row (r : Row) (rs : list Row) : list Row :=
  match rs with
  | [] => [r]
  | r' :: rest =>
      if (row_id r <? row_id r')%Z then r :: rs else r' :: insert_row r rest
  end.

(** INSERT INTO student (id, name) of one pending object: the NOT NULL
    constraint of [name], then the primary key. *)
Definition INSERT (s : Student) (rs : list Row) : Exception + list Row :=
  match name s, name_nullable with
  | None, false =>
      inl (IntegrityError "NOT NULL constraint failed: student.name" (INSERT_INTO s))
  | n, _ =>
      match id s with
      | None => inr (rs ++ [mkRow (next_rowid rs) n])
      | Some i =>
          if existsb (fun r => (row_id r =? i)%Z) rs
          then inl (IntegrityError "UNIQUE constraint failed: student.id" (INSERT_INTO s))
          else inr (insert_row (mkRow i n) rs)
      end
  end.

(** The flush of a commit: the pending objects are inserted in the order
    they were added, and the first failure ends it. *)
Fixpoint flush (pending : list Student) (rs : list Row) : Exception + list Row :=
  match pending with
  | [] => inr rs
  | s :: rest =>
      match INSERT s rs with
      | inl e => inl e
      | inr rs' => flush rest rs'
      end
  end.

(** [db.session.commit()]: with nothing pending there is no transaction and
    nothing to do.  Otherwise the pending objects are flushed in one
    transaction and the transaction is committed.  The first INSERT fails
    when the table is missing or the database cannot be written; when an
    INSERT raises, the engine has rolled the transaction back and the table
    is what it was. *)
Definition session_commit : M unit :=
  fun c =>
    match session c with
    | [] => (Return tt, c)
    | s :: _ =>
        match students_db (world c) with
        | None =>
            (Raise (OperationalError "no such table: student" (INSERT_INTO s)), c)
        | Some rs =>
            match engine c with
            | Failing m => (Raise (OperationalError m (INSERT_INTO s)), c)
            | Healthy =>
                match flush (session c) rs with
                | inl e => (Raise e, c)
                | inr rs' =>
                    (Return tt,
                     set_session []
                       (set_world (set_students_db (Some rs') (world c)) c))
                end
            end
        end
    end.

(** [Student.query.all()]: SELECT of every row, each loaded as a [Student]. *)
Definition Student_of_row (r : Row) : Student :=
  {| id := Some (row_id r); name := row_name r |}.

Definition Student_query_all : M (list Student) :=
  fun c =>
    match students_db (world c) with
    | None => (Raise (OperationalError "no such table: student" SELECT_FROM), c)
    | Some rs => (Return (map Student_of_row rs), c)
    end.

(** [db.create_all()]: looks whether the table exists and creates it when it
    does not; CREATE TABLE is a write and fails on a database that cannot be
    written. *)
Definition create_all : M unit :=
  fun c =>
    match students_db (world c) with
    | Some _ => (Return tt, c)
    | None =>
        match engine c with
        | Failing m => (Raise (OperationalError m CREATE_TABLE), c)
        | Healthy =>
            (Return tt, set_world (set_students_db (Some []) (world c)) c)
        end
    end.

(** Modelled from the spec: the template [templates/index.html] is not among
    the sources; the spec gives its output as the rendered page listing all
    names, so the page lists the name of every student it is given, in the
    order given. *)
Definition index_html (students : list Student) : Page :=
  map name students.

(** [render_template(template, students=students)] *)
Definition render_template (template : string) (students : list Student) : M Page :=
  if String.eqb template "index.html"
  then ret (index_html students)
  else raise (TemplateNotFound template).

(** A rule of the URL map: a fixed path, or a prefix followed by a
    [<path:filename>] argument. *)
Inductive Rule : Type :=
| Path (p : string)
| PathArgument (prefix : string).

(** The URL map: the rule [/static/<path:filename>] that [Flask(__name__)]
    registers, and the rules of the two [@app.route] decorators; each with
    its endpoint and its methods (Flask adds HEAD to a rule that has GET,
    and OPTIONS to every rule). *)
Definition url_map : list (Rule * string * list Method) :=
  [ (PathArgument "/static/", "static", [GET; HEAD; OPTIONS]);
    (Path "/", "homepage", [GET; HEAD; OPTIONS]);
    (Path "/student", "add_student", [POST; OPTIONS]) ].

(** The arguments with which a rule matches a path, if it does; a path
    argument is not empty and does not start with a slash. *)
Definition rule_match (r : Rule) (p : string) : option (list string) :=
  match r with
  | Path q => if String.eqb q p then Some [] else None
  | PathArgument pre =>
      if String.prefix pre p
      then
        match String.substring (String.length pre)
                (String.length p - String.length pre) p with
        | EmptyString => None
        | String a rest as filename =>
            if Ascii.eqb a "/"%char then None else Some [filename]
        end
      else None
  end.

(** [url_for(endpoint)], without values: the path of the rule of the
    endpoint; a rule with an argument cannot be built without its value. *)
Fixpoint build (endpoint : string) (rules : list (Rule * string * list Method))
  : option string :=
  match rules with
  | [] => None
  | (rule, ep, _) :: rest =>
      if String.eqb ep endpoint
      then match rule with
           | Path p => Some p
           | PathArgument _ => None
           end
      else build endpoint rest
  end.

Definition url_for (endpoint : string) : M string :=
  match build endpoint url_map with
  | Some rule => ret rule
  | None => raise (BuildError endpoint)
  end.

(** [redirect(location)] *)
Definition redirect (location : string) : Response := Redirect302 location.

Definition Method_eqb (a b : Method) : bool :=
  match a, b with
  | GET, GET => true
  | HEAD, HEAD => true
  | POST, POST => true
  | OPTIONS, OPTIONS => true
  | Other v, Other v' => String.eqb v v'
  | _, _ => false
  end.

(** The static view of Flask: [send_static_file(filename)]. *)
Definition send_static_file (filename : string) : M Response :=
  ret (StaticFile filename).

Inductive Match : Type :=
| Endpoint (endpoint : string) (args : list string)
| NotFound
| MethodNotAllowed.

(** The rule that matches a path and a method: a path no rule has is
    NotFound, a path whose rules do not allow the method is
    MethodNotAllowed. *)
Fixpoint match_request (m : Method) (p : string)
  (rules : list (Rule * string * list Method)) : Match :=
  match rules with
  | [] => NotFound
  | (rule, ep, ms) :: rest =>
      match rule_match rule p with
      | Some args =>
          if existsb (Method_eqb m) ms then Endpoint ep args
          else match match_request m p rest with
               | Endpoint ep' args' => Endpoint ep' args'
               | _ => MethodNotAllowed
               end
      | None => match_request m p rest
      end
  end.

(** A new database file: no table, nothing printed, no request served. *)
Definition fresh : World := mkWorld None [] false.

(** Once the first request was served the table exists. *)
Definition consistent (w : World) : Prop :=
  got_first_request w = true -> students_db w <> None.

Definition is_post_student (req : Request) : bool :=
  Method_eqb (method req) POST && String.eqb (path req) "/student".

Definition returned {A : Type} (r : Result A) : bool :=
  match r with
  | Return _ => true
  | Raise _ => false
  end.

(** The number of requests of a run that are a POST to [/student]. *)
Definition post_students (trace : list (Engine * Request)) : nat :=
  List.length (filter (fun er => is_post_student (snd er)) trace).

Definition submitted (trace : list (Engine * Request)) : list (option string) :=
  map (fun er => form_lookup "student" (form (snd er))) trace.

(** The ids 1, 2, ..., n. *)
Definition ids_upto (n : nat) : list Z := map Z.of_nat (seq 1 n).

(** ** Concrete requests, engines and worlds *)

Definition get_root : Request := mkRequest GET "/" [].
Definition post_student (n : string) : Request :=
  mkRequest POST "/student" [("student", n)].
Definition post_alice : Request := post_student "Alice".
Definition post_nothing : Request := mkRequest POST "/student" [("pupil", "Alice")].
Definition locked : Engine := Failing "database is locked".

(** A name of 256 characters, one more than [name_length]. *)
Definition long_name : string :=
  Eval cbv in String.concat "" (repeat "a" 256).

(** A world whose database lost its table after the first request was
    served (the file was removed or replaced while the server ran). *)
Definition table_lost : World := mkWorld None [] true.

(** A form that sends the field [student] twice, between other fields. *)
Definition post_twice : Request :=
  mkRequest POST "/student"
    [("class", "1b"); ("student", "Alice"); ("student", "Bob")].

(** A world that holds Alice and has served its first request. *)
Definition with_alice : World :=
  mkWorld (Some [mkRow 1 (Some "Alice")]) [] true.

(** One wording, for the examples: the name of the class of the exception
    and what it holds. *)
Definition example_wording : Wording :=
  fun e =>
    match e with
    | BadRequestKeyError key => ("BadRequestKeyError: " ++ key)%string
    | IntegrityError orig _ => ("IntegrityError: " ++ orig)%string
    | OperationalError orig _ => ("OperationalError: " ++ orig)%string
    | TemplateNotFound template => ("TemplateNotFound: " ++ template)%string
    | BuildError endpoint => ("BuildError: " ++ endpoint)%string
    end.

(** ** The application *)

Section App.

Context {W : Wording}.

(** [@app.before_first_request def setup()] *)
Definition setup : M unit := create_all.

(** [@app.route('/') def homepage()] *)
Definition homepage : M Response :=
  students <- Student_query_all ;;
  print (PrintStudents students) ;;;
  page <- render_template "index.html" students ;;
  ret (Ok200 page).

(** The body of the [try] of [add_student]. *)
Definition add_student_try : M unit :=
  n <- request_form_getitem "student" ;;
  let student := Student_init n in
  session_add student ;;;
  session_commit.

(** [@app.route('/student', methods=['POST']) def add_student()] *)
Definition add_student : M Response :=
  (fun c =>
     if Method_eqb (method (request c)) POST
     then try_except add_student_try
            (fun e => print (PrintLine ("Exception when adding student: " ++ str e)%string)) c
     else ret tt c) ;;;
  location <- url_for "homepage" ;;
  ret (redirect location).

Definition view_functions (endpoint : string) (args : list string)
  : option (M Response) :=
  if String.eqb endpoint "homepage" then Some homepage
  else if String.eqb endpoint "add_student" then Some add_student
  else if String.eqb endpoint "static"
  then match args with
       | [filename] => Some (send_static_file filename)
       | _ => None
       end
  else None.

(** ** Serving a request *)

(** Flask's [try_trigger_before_first_request_functions]: until a first
    request got through it, the hook [setup] runs before the request is
    dispatched; the application has got its first request once the hook
    returned, and not when it raised. *)
Definition try_trigger_before_first_request_functions : M unit :=
  fun c =>
    if got_first_request (world c) then (Return tt, c)
    else
      match setup c with
      | (Return _, c') =>
          (Return tt,
           set_world (mkWorld (students_db (world c')) (stdout (world c')) true) c')
      | (Raise e, c') => (Raise e, c')
      end.

(** The context in which a request is dispatched: a fresh session, and the
    world the hook left. *)
Definition before_request (eng : Engine) (req : Request) (w : World) : Ctx :=
  snd (try_trigger_before_first_request_functions (mkCtx req eng [] w)).

(** The answer to a HEAD is sent without its body. *)
Definition respond (req : Request) (r : Response) : Response :=
  if Method_eqb (method req) HEAD then WithoutBody r else r.

(** One request from start to end: the hook (an exception that leaves it is
    answered with 500 and nothing is dispatched), the match of the URL, the
    automatic answer to OPTIONS or the view function (an exception that
    leaves it is answered with 500), and the teardown, which removes the
    session. *)
Definition handle (eng : Engine) (req : Request) (w : World) : Response * World :=
  let c := before_request eng req w in
  match fst (try_trigger_before_first_request_functions (mkCtx req eng [] w)) with
  | Raise _ => (respond req InternalServerError500, world c)
  | Return _ =>
      match match_request (method req) (path req) url_map with
      | NotFound => (respond req NotFound404, world c)
      | MethodNotAllowed => (respond req MethodNotAllowed405, world c)
      | Endpoint ep args =>
          if Method_eqb (method req) OPTIONS then (Options200, world c)
          else
            match view_functions ep args with
            | None => (respond req InternalServerError500, world c)
            | Some view =>
                match view c with
                | (Return r, c') => (respond req r, world c')
                | (Raise _, c') => (respond req InternalServerError500, world c')
                end
            end
      end
  end.

(** A run of requests, each with the engine it finds. *)
Fixpoint handle_all (trace : list (Engine * Request)) (w : World) : World :=
  match trace with
  | [] => w
  | (eng, req) :: rest => handle_all rest (snd (handle eng req w))
  end.

(** The worlds the application reaches from a new database file. *)
Inductive reachable : World -> Prop :=
| reachable_fresh : reachable fresh
| reachable_handle : forall eng req w,
    reachable w -> reachable (snd (handle eng req w)).

(** Every request of the run is a POST to [/student] whose [try] block
    raised nothing. *)
Fixpoint all_inserted (trace : list (Engine * Request)) (w : World) : bool :=
  match trace with
  | [] => true
  | (eng, req) :: rest =>
      is_post_student req &&
      returned (fst (add_student_try (before_request eng req w))) &&
      all_inserted rest (snd (handle eng req w))
  end.

(** ** The hook *)

Lemma hook_cases (eng : Engine) (req : Request) (w : World) :
  try_trigger_before_first_request_functions (mkCtx req eng [] w) =
  if got_first_request w then (Return tt, mkCtx req eng [] w)
  else
    match students_db w, eng with
    | Some rs, _ =>
        (Return tt, mkCtx req eng [] (mkWorld (Some rs) (stdout w) true))
    | None, Healthy =>
        (Return tt, mkCtx req eng [] (mkWorld (Some []) (stdout w) true))
    | None, Failing m =>
        (Raise (OperationalError m CREATE_TABLE), mkCtx req eng [] w)
    end.
Proof.
  unfold try_trigger_before_first_request_functions, setup, create_all.
  destruct w as [[rs|] out [|]], eng; reflexivity.
Qed.

Lemma before_request_served (eng : Engine) (req : Request) (w : World) :
  got_first_request w = true -> before_request eng req w = mkCtx req eng [] w.
Proof.
  intros Hserved. unfold before_request. rewrite hook_cases, Hserved. reflexivity.
Qed.

Lemma before_request_parts (eng : Engine) (req : Request) (w : World) :
  let c := before_request eng req w in
  request c = req /\ engine c = eng /\ session c = [] /\
  rows (world c) = rows w /\ stdout (world c) = stdout w.
Proof.
  unfold before_request. rewrite hook_cases. unfold rows.
  destruct w as [[rs|] out [|]], eng; cbn; repeat split; reflexivity.
Qed.

(** When the hook raised, it left the world as it was: no table, and the
    first request still to come. *)
Lemma hook_raised (eng : Engine) (req : Request) (w : World) (e : Exception) :
  fst (try_trigger_before_first_request_functions (mkCtx req eng [] w)) = Raise e ->
  before_request eng req w = mkCtx req eng [] w /\
  got_first_request w = false /\ students_db w = None /\
  exists m, eng = Failing m /\ e = OperationalError m CREATE_TABLE.
Proof.
  unfold before_request. rewrite hook_cases.
  destruct w as [[rs|] out [|]], eng; cbn; intros He; try discriminate He.
  injection He as <-. repeat split. eauto.
Qed.

(** When the hook returned, the application has got its first request. *)
Lemma hook_returned (eng : Engine) (req : Request) (w : World) :
  fst (try_trigger_before_first_request_functions (mkCtx req eng [] w)) = Return tt ->
  got_first_request (world (before_request eng req w)) = true.
Proof.
  unfold before_request. rewrite hook_cases.
  destruct w as [[rs|] out [|]], eng; cbn; intros He; try discriminate He;
    reflexivity.
Qed.

(** It returns when the first request was served, when the table exists and
    when the engine is healthy. *)
Lemma hook_returns (eng : Engine) (req : Request) (w : World) :
  got_first_request w = true \/ students_db w <> None \/ eng = Healthy ->
  fst (try_trigger_before_first_request_functions (mkCtx req eng [] w)) = Return tt.
Proof.
  rewrite hook_cases.
  destruct w as [[rs|] out [|]], eng; cbn; intros [H | [H | H]];
    try reflexivity; try discriminate H; now destruct H.
Qed.

Lemma before_request_table (eng : Engine) (req : Request) (w : World) :
  consistent w ->
  fst (try_trigger_before_first_request_functions (mkCtx req eng [] w)) = Return tt ->
  students_db (world (before_request eng req w)) = Some (rows w).
Proof.
  unfold consistent, before_request, rows. rewrite hook_cases.
  destruct w as [[rs|] out [|]], eng; cbn; intros Hc He; try reflexivity;
    try discriminate He.
  all: now destruct Hc.
Qed.

Lemma before_request_world (eng : Engine) (req1 req2 : Request) (w : World) :
  world (before_request eng req1 w) = world (before_request eng req2 w).
Proof.
  unfold before_request. rewrite !hook_cases.
  destruct w as [[rs|] out [|]], eng; reflexivity.
Qed.

(** ** The routing *)

Lemma route_homepage (req : Request) :
  method req = GET -> path req = "/" ->
  match_request (method req) (path req) url_map = Endpoint "homepage" [].
Proof. intros -> ->. reflexivity. Qed.

Lemma route_add_student (req : Request) :
  method req = POST -> path req = "/student" ->
  match_request (method req) (path req) url_map = Endpoint "add_student" [].
Proof. intros -> ->. reflexivity. Qed.

(** The endpoints a request is dispatched to, with the methods that reach
    the two views of the application. *)
Lemma route_cases (req : Request) :
  match_request (method req) (path req) url_map = NotFound \/
  match_request (method req) (path req) url_map = MethodNotAllowed \/
  (exists args,
     match_request (method req) (path req) url_map = Endpoint "static" args) \/
  (match_request (method req) (path req) url_map = Endpoint "homepage" [] /\
   (method req = GET \/ method req = HEAD \/ method req = OPTIONS)) \/
  (match_request (method req) (path req) url_map = Endpoint "add_student" [] /\
   path req = "/student" /\
   (method req = POST \/ method req = OPTIONS)).
Proof.
  unfold url_map. cbn [match_request].
  destruct (rule_match (PathArgument "/static/") (path req)) as [args|];
    cbn [rule_match];
    destruct (String.eqb_spec "/" (path req));
    destruct (String.eqb_spec "/student" (path req));
    destruct (method req); cbn; eauto 10.
Qed.

(** ** The [try] block of [add_student] *)

(** What the block does in a context whose session is empty, case by case:
    the field is missing; the table is missing; the database cannot be
    written; the insert goes through. *)
Lemma add_student_try_cases (c : Ctx) :
  session c = [] ->
  match form_lookup "student" (form (request c)) with
  | None => add_student_try c = (Raise (BadRequestKeyError "student"), c)
  | Some n =>
      match students_db (world c) with
      | None =>
          add_student_try c =
          (Raise (OperationalError "no such table: student"
                    (INSERT_INTO (Student_init n))),
           set_session [Student_init n] c)
      | Some rs =>
          match engine c with
          | Failing m =>
              add_student_try c =
              (Raise (OperationalError m (INSERT_INTO (Student_init n))),
               set_session [Student_init n] c)
          | Healthy =>
              add_student_try c =
              (Return tt,
               mkCtx (request c) (engine c) []
                 (set_students_db
                    (Some (rs ++ [mkRow (next_rowid rs) (Some n)])) (world c)))
          end
      end
  end.
Proof.
  intros Hs.
  unfold add_student_try, bind, request_form_getitem, session_add, session_commit.
  destruct (form_lookup "student" (form (request c))) as [n|]; [|reflexivity].
  cbn. rewrite Hs. cbn.
  destruct (students_db (world c)) as [rs|]; [|reflexivity].
  unfold set_session, set_world. cbn. destruct (engine c); reflexivity.
Qed.

(** A block that raised left the world as it found it. *)
Lemma add_student_try_raise (c c' : Ctx) (e : Exception) :
  session c = [] ->
  add_student_try c = (Raise e, c') -> world c' = world c.
Proof.
  intros Hs Hrun. pose proof (add_student_try_cases c Hs) as Hcases.
  destruct (form_lookup "student" (form (request c))) as [n|].
  - destruct (students_db (world c)) as [rs|].
    + destruct (engine c); rewrite Hcases in Hrun; inversion Hrun; reflexivity.
    + rewrite Hcases in Hrun. inversion Hrun. reflexivity.
  - rewrite Hcases in Hrun. inversion Hrun. reflexivity.
Qed.

(** A block that returned found the field and the table and appended one
    row, which holds the submitted string. *)
Lemma add_student_try_return (c c' : Ctx) (u : unit) :
  session c = [] ->
  add_student_try c = (Return u, c') ->
  exists n rs,
    form_lookup "student" (form (request c)) = Some n /\
    students_db (world c) = Some rs /\
    world c' =
      set_students_db (Some (rs ++ [mkRow (next_rowid rs) (Some n)])) (world c).
Proof.
  intros Hs Hrun. pose proof (add_student_try_cases c Hs) as Hcases.
  destruct (form_lookup "student" (form (request c))) as [n|].
  - destruct (students_db (world c)) as [rs|].
    + destruct (engine c); rewrite Hcases in Hrun; inversion Hrun.
      exists n, rs. repeat split.
    + rewrite Hcases in Hrun. inversion Hrun.
  - rewrite Hcases in Hrun. inversion Hrun.
Qed.

(** The block returns only in a context the hook returned to. *)
Lemma try_returned_hook (eng : Engine) (req : Request) (w : World) :
  fst (add_student_try (before_request eng req w)) = Return tt ->
  fst (try_trigger_before_first_request_functions (mkCtx req eng [] w)) = Return tt.
Proof.
  intros Hret.
  destruct (fst (try_trigger_before_first_request_functions (mkCtx req eng [] w)))
    as [[]|e] eqn:Hhook; [reflexivity|].
  destruct (hook_raised eng req w e Hhook) as (Hctx & _ & Hdb & _).
  rewrite Hctx in Hret.
  pose proof (add_student_try_cases (mkCtx req eng [] w) eq_refl) as Hcases.
  cbn in Hcases. rewrite Hdb in Hcases.
  destruct (form_lookup "student" (form req)); rewrite Hcases in Hret;
    discriminate Hret.
Qed.

(** ** The two views *)

(** [add_student] in terms of its [try] block, for a POST. *)
Lemma add_student_post (c : Ctx) :
  method (request c) = POST ->
  add_student c =
  match add_student_try c with
  | (Return _, c') => (Return (Redirect302 "/"), c')
  | (Raise e, c') =>
      (Return (Redirect302 "/"),
       set_world
         (mkWorld (students_db (world c'))
            (stdout (world c') ++
             [PrintLine ("Exception when adding student: " ++ str e)%string])
            (got_first_request (world c'))) c')
  end.
Proof.
  intros Hm. unfold add_student, bind, try_except. rewrite Hm. cbn.
  destruct (add_student_try c) as [[u|e] c']; reflexivity.
Qed.

(** [add_student] returns, and returns the redirect, whatever it is given. *)
Lemma add_student_returns (c : Ctx) :
  exists c', add_student c = (Return (Redirect302 "/"), c').
Proof.
  unfold add_student, bind, try_except.
  destruct (Method_eqb (method (request c)) POST).
  - destruct (add_student_try c) as [[u|e] c']; eexists; reflexivity.
  - eexists. reflexivity.
Qed.

Lemma homepage_table (c : Ctx) (rs : list Row) :
  students_db (world c) = Some rs ->
  homepage c =
  (Return (Ok200 (map row_name rs)),
   set_world
     (mkWorld (Some rs)
        (stdout (world c) ++ [PrintStudents (map Student_of_row rs)])
        (got_first_request (world c))) c).
Proof.
  intros Hdb. unfold homepage, bind, Student_query_all, print. rewrite Hdb. cbn.
  unfold index_html. rewrite Hdb, map_map. reflexivity.
Qed.

Lemma homepage_rows (c c' : Ctx) (r : Result Response) :
  homepage c = (r, c') -> students_db (world c') = students_db (world c).
Proof.
  destruct (students_db (world c)) as [rs|] eqn:Hdb.
  - rewrite (homepage_table c rs Hdb). intros Hrun. inversion Hrun. reflexivity.
  - unfold homepage, bind, Student_query_all. rewrite Hdb.
    intros Hrun. inversion Hrun. subst. assumption.
Qed.

(** ** Serving a request *)

Lemma handle_hook_raised (eng : Engine) (req : Request) (w : World) (e : Exception) :
  fst (try_trigger_before_first_request_functions (mkCtx req eng [] w)) = Raise e ->
  handle eng req w = (respond req InternalServerError500, w).
Proof.
  intros Hhook. unfold handle. rewrite Hhook.
  destruct (hook_raised eng req w e Hhook) as (-> & _). reflexivity.
Qed.

Lemma handle_add_student (eng : Engine) (req : Request) (w : World) :
  method req = POST -> path req = "/student" ->
  fst (try_trigger_before_first_request_functions (mkCtx req eng [] w)) = Return tt ->
  handle eng req w =
  match add_student (before_request eng req w) with
  | (Return r, c') => (r, world c')
  | (Raise _, c') => (InternalServerError500, world c')
  end.
Proof.
  intros Hm Hp Hhook. unfold handle, respond.
  rewrite Hhook, (route_add_student req Hm Hp), Hm. reflexivity.
Qed.

Lemma handle_homepage (eng : Engine) (req : Request) (w : World) :
  method req = GET -> path req = "/" ->
  fst (try_trigger_before_first_request_functions (mkCtx req eng [] w)) = Return tt ->
  handle eng req w =
  match homepage (before_request eng req w) with
  | (Return r, c') => (r, world c')
  | (Raise _, c') => (InternalServerError500, world c')
  end.
Proof.
  intros Hm Hp Hhook. unfold handle, respond.
  rewrite Hhook, (route_homepage req Hm Hp), Hm. reflexivity.
Qed.

(** What one request does to the table: nothing, or, for a POST that found
    the field, one row appended that holds the submitted string. *)
Lemma handle_table (eng : Engine) (req : Request) (w : World) :
  let c := before_request eng req w in
  students_db (snd (handle eng req w)) = students_db (world c) \/
  exists n rs,
    is_post_student req = true /\
    form_lookup "student" (form req) = Some n /\
    students_db (world c) = Some rs /\
    students_db (snd (handle eng req w)) =
      Some (rs ++ [mkRow (next_rowid rs) (Some n)]).
Proof.
  intros c.
  destruct (before_request_parts eng req w) as (Hreq & _ & Hs & _).
  fold c in Hreq, Hs.
  destruct (fst (try_trigger_before_first_request_functions (mkCtx req eng [] w)))
    as [[]|e] eqn:Hhook;
    [|left; unfold handle; rewrite Hhook; reflexivity].
  unfold handle. rewrite Hhook. fold c.
  destruct (route_cases req)
    as [Hr | [Hr | [[args Hr] | [[Hr Hm] | (Hr & Hp & Hm)]]]]; rewrite Hr.
  - now left.
  - now left.
  - left. destruct (Method_eqb (method req) OPTIONS); [reflexivity|].
    destruct args as [|f [|f' args]]; reflexivity.
  - left. destruct (Method_eqb (method req) OPTIONS); [reflexivity|].
    change (view_functions "homepage" []) with (Some homepage).
    cbv beta iota.
    pose proof (homepage_rows c) as Hkeep.
    destruct (homepage c) as [[r|e] c']; exact (Hkeep _ _ eq_refl).
  - destruct Hm as [Hm | Hm]; rewrite Hm; [|now left].
    change (view_functions "add_student" []) with (Some add_student).
    cbn [Method_eqb]. cbv beta iota. rewrite add_student_post by (rewrite Hreq; exact Hm).
    destruct (add_student_try c) as [[u|e] c'] eqn:Hrun.
    + right. destruct (add_student_try_return c c' u Hs Hrun)
        as (n & rs & Hn & Hdb & Hw).
      exists n, rs. rewrite Hreq in Hn. cbn. rewrite Hw.
      unfold is_post_student. rewrite Hm, Hp. auto.
    + left. cbn. now rewrite (add_student_try_raise c c' e Hs Hrun).
Qed.

Lemma handle_consistent (eng : Engine) (req : Request) (w : World) :
  consistent w -> consistent (snd (handle eng req w)).
Proof.
  intros Hc.
  destruct (fst (try_trigger_before_first_request_functions (mkCtx req eng [] w)))
    as [[]|e] eqn:Hhook.
  - intros _. pose proof (before_request_table eng req w Hc Hhook) as Hdb.
    destruct (handle_table eng req w) as [Hsame | (n & rs & _ & _ & _ & Hnew)].
    + rewrite Hsame, Hdb. discriminate.
    + rewrite Hnew. discriminate.
  - now rewrite (handle_hook_raised eng req w e Hhook).
Qed.

Lemma reachable_consistent (w : World) : reachable w -> consistent w.
Proof.
  induction 1 as [|eng req w _ IH].
  - intros Hserved. discriminate Hserved.
  - now apply handle_consistent.
Qed.

(** In terms of rows: a request appends at most one row and touches no
    other. *)
Lemma handle_rows (eng : Engine) (req : Request) (w : World) :
  rows (snd (handle eng req w)) = rows w \/
  exists n,
    is_post_student req = true /\
    form_lookup "student" (form req) = Some n /\
    rows (snd (handle eng req w)) =
      rows w ++ [mkRow (next_rowid (rows w)) (Some n)].
Proof.
  destruct (before_request_parts eng req w) as (_ & _ & _ & Hrows & _).
  destruct (handle_table eng req w) as [Hsame | (n & rs & Hm & Hn & Hdb & Hnew)].
  - left. unfold rows in *. now rewrite Hsame.
  - right. exists n. repeat split; try assumption.
    unfold rows in *. rewrite Hnew. rewrite Hdb in Hrows. now subst rs.
Qed.

(** A POST to [/student] whose [try] block raised: the redirect, the line on
    standard output, the table of before. *)
Lemma handle_post_raise (eng : Engine) (req : Request) (w : World)
  (e : Exception) (c' : Ctx) :
  method req = POST -> path req = "/student" ->
  fst (try_trigger_before_first_request_functions (mkCtx req eng [] w)) = Return tt ->
  add_student_try (before_request eng req w) = (Raise e, c') ->
  handle eng req w =
  (Redirect302 "/",
   mkWorld (students_db (world (before_request eng req w)))
     (stdout w ++ [PrintLine ("Exception when adding student: " ++ str e)%string])
     true).
Proof.
  intros Hm Hp Hhook Hrun.
  destruct (before_request_parts eng req w) as (Hreq & _ & Hs & _ & Hout).
  rewrite (handle_add_student eng req w Hm Hp Hhook).
  rewrite add_student_post by (rewrite Hreq; exact Hm).
  rewrite Hrun. cbn.
  rewrite (add_student_try_raise _ c' e Hs Hrun), Hout.
  now rewrite (hook_returned eng req w Hhook).
Qed.

(** A POST to [/student] whose [try] block returned: the redirect, nothing
    printed, one row appended, which holds the submitted string. *)
Lemma handle_post_return (eng : Engine) (req : Request) (w : World) :
  method req = POST -> path req = "/student" ->
  fst (add_student_try (before_request eng req w)) = Return tt ->
  exists n,
    form_lookup "student" (form req) = Some n /\
    handle eng req w =
    (Redirect302 "/",
     mkWorld (Some (rows w ++ [mkRow (next_rowid (rows w)) (Some n)]))
       (stdout w) true).
Proof.
  intros Hm Hp Hret.
  pose proof (try_returned_hook eng req w Hret) as Hhook.
  destruct (before_request_parts eng req w) as (Hreq & _ & Hs & Hrows & Hout).
  rewrite (handle_add_student eng req w Hm Hp Hhook).
  rewrite add_student_post by (rewrite Hreq; exact Hm).
  destruct (add_student_try (before_request eng req w)) as [[u|e] c'] eqn:Hrun;
    [|discriminate Hret].
  destruct (add_student_try_return _ c' u Hs Hrun) as (n & rs & Hn & Hdb & Hw).
  exists n. rewrite Hreq in Hn. split; [exact Hn|].
  cbn. rewrite Hw. unfold set_students_db.
  rewrite Hout, (hook_returned eng req w Hhook).
  unfold rows in Hrows. rewrite Hdb in Hrows. now subst rs.
Qed.

(** A GET of [/] that got past the hook, in a world whose table exists or
    has just been created. *)
Lemma handle_get (eng : Engine) (req : Request) (w : World) :
  consistent w -> method req = GET -> path req = "/" ->
  fst (try_trigger_before_first_request_functions (mkCtx req eng [] w)) = Return tt ->
  handle eng req w =
  (Ok200 (map row_name (rows w)),
   mkWorld (Some (rows w))
     (stdout w ++ [PrintStudents (map Student_of_row (rows w))]) true).
Proof.
  intros Hc Hm Hp Hhook.
  destruct (before_request_parts eng req w) as (_ & _ & _ & _ & Hout).
  rewrite (handle_homepage eng req w Hm Hp Hhook).
  rewrite (homepage_table _ (rows w) (before_request_table eng req w Hc Hhook)).
  cbn. now rewrite Hout, (hook_returned eng req w Hhook).
Qed.

(** Everything a POST to [/student] that got past the hook does, by the
    four cases of its [try] block. *)
Lemma handle_post_student (eng : Engine) (req : Request) (w : World) :
  method req = POST -> path req = "/student" ->
  fst (try_trigger_before_first_request_functions (mkCtx req eng [] w)) = Return tt ->
  handle eng req w =
  (Redirect302 "/",
   match form_lookup "student" (form req),
         students_db (world (before_request eng req w)), eng with
   | None, db, _ =>
       mkWorld db
         (stdout w ++
          [PrintLine ("Exception when adding student: " ++
                      str (BadRequestKeyError "student"))%string])
         true
   | Some n, None, _ =>
       mkWorld None
         (stdout w ++
          [PrintLine ("Exception when adding student: " ++
                      str (OperationalError "no such table: student"
                             (INSERT_INTO (Student_init n))))%string])
         true
   | Some n, Some rs, Failing m =>
       mkWorld (Some rs)
         (stdout w ++
          [PrintLine ("Exception when adding student: " ++
                      str (OperationalError m (INSERT_INTO (Student_init n))))%string])
         true
   | Some n, Some rs, Healthy =>
       mkWorld (Some (rs ++ [mkRow (next_rowid rs) (Some n)])) (stdout w) true
   end).
Proof.
  intros Hm Hp Hhook.
  destruct (before_request_parts eng req w) as (Hreq & Heng & Hs & _ & Hout).
  pose proof (hook_returned eng req w Hhook) as Hserved.
  pose proof (add_student_try_cases _ Hs) as Hrun. rewrite Hreq, Heng in Hrun.
  destruct (form_lookup "student" (form req)) as [n|].
  - destruct (students_db (world (before_request eng req w))) as [rs|] eqn:Hdb.
    + destruct eng as [|m].
      * rewrite (handle_add_student Healthy req w Hm Hp Hhook).
        rewrite add_student_post by (rewrite Hreq; exact Hm).
        rewrite Hrun. cbn. unfold set_students_db. now rewrite Hout, Hserved.
      * rewrite (handle_post_raise _ req w _ _ Hm Hp Hhook Hrun), Hdb. reflexivity.
    + rewrite (handle_post_raise _ req w _ _ Hm Hp Hhook Hrun), Hdb. reflexivity.
  - rewrite (handle_post_raise _ req w _ _ Hm Hp Hhook Hrun). reflexivity.
Qed.

(** A request whose method the rule of its path does not allow runs no
    view. *)
Lemma handle_method_not_allowed (eng : Engine) (req : Request) (w : World) :
  fst (try_trigger_before_first_request_functions (mkCtx req eng [] w)) = Return tt ->
  (path req = "/" /\ method req = POST) \/
  (path req = "/student" /\ (method req = GET \/ method req = HEAD)) ->
  handle eng req w =
  (respond req MethodNotAllowed405, world (before_request eng req w)).
Proof.
  intros Hhook Hcase. unfold handle. rewrite Hhook.
  destruct Hcase as [[-> ->] | [-> [-> | ->]]]; reflexivity.
Qed.

Lemma app_one_neq {A : Type} (l : list A) (x : A) : l ++ [x] <> l.
Proof.
  intros Heq. apply (f_equal (@List.length A)) in Heq.
  rewrite length_app in Heq. cbn in Heq. lia.
Qed.

(** ** A run of requests *)

Lemma is_post_student_true (req : Request) :
  is_post_student req = true -> method req = POST /\ path req = "/student".
Proof.
  unfold is_post_student. intros H. apply andb_prop in H as [Hm Hp].
  split.
  - destruct (method req); try discriminate Hm. reflexivity.
  - now apply String.eqb_eq.
Qed.

Lemma returned_unit (r : Result unit) : returned r = true -> r = Return tt.
Proof.
  destruct r as [[]|e]; [reflexivity | discriminate].
Qed.

Lemma handle_all_inserted (trace : list (Engine * Request)) :
  forall w,
    all_inserted trace w = true ->
    exists added,
      rows (handle_all trace w) = rows w ++ added /\
      map row_name added = submitted trace.
Proof.
  induction trace as [|[eng req] rest IH]; intros w Hall.
  - exists []. cbn. now rewrite app_nil_r.
  - cbn in Hall. apply andb_prop in Hall as [Hfirst Hrest].
    apply andb_prop in Hfirst as [Hpost Hret].
    apply is_post_student_true in Hpost as [Hm Hp].
    apply returned_unit in Hret.
    destruct (handle_post_return eng req w Hm Hp Hret) as (n & Hn & Hrun).
    destruct (IH _ Hrest) as (added & Hrows & Hnames).
    exists (mkRow (next_rowid (rows w)) (Some n) :: added).
    cbn [handle_all submitted map snd]. rewrite Hrows, Hrun. cbn.
    rewrite <- app_assoc. cbn. rewrite Hn. fold (submitted rest).
    now rewrite Hnames.
Qed.

Lemma handle_rows_bound (eng : Engine) (req : Request) (w : World) :
  exists added,
    rows (snd (handle eng req w)) = rows w ++ added /\
    (List.length added <= if is_post_student req then 1 else 0)%nat.
Proof.
  destruct (handle_rows eng req w) as [Hsame | (n & Hpost & _ & Hnew)].
  - exists []. rewrite Hsame, app_nil_r. split; [reflexivity|].
    destruct (is_post_student req); cbn; lia.
  - eexists. split; [exact Hnew|]. rewrite Hpost. cbn. lia.
Qed.

(** ** The ids *)

Lemma fold_max_bounds (l : list Z) :
  forall a,
    (a <= fold_left Z.max l a)%Z /\
    (forall x, In x l -> (x <= fold_left Z.max l a)%Z) /\
    (fold_left Z.max l a = a \/ In (fold_left Z.max l a) l).
Proof.
  induction l as [|y l IH]; intros a; cbn.
  - repeat split; [lia | intros x [] | now left].
  - destruct (IH (Z.max a y)) as (Hge & Hall & Hin).
    split; [lia|]. split.
    + intros x [<- | Hx]; [lia | now apply Hall].
    + destruct Hin as [Heq | Hin]; [|now right; right].
      rewrite Heq. destruct (Z.max_spec a y) as [[_ ->] | [_ ->]]; auto.
Qed.

(** The id of a new row is above every id of the table. *)
Lemma next_rowid_above (rs : list Row) (r : Row) :
  In r rs -> (row_id r < next_rowid rs)%Z.
Proof.
  destruct rs as [|r0 rest]; [intros []|].
  intros Hin. cbn [next_rowid].
  destruct (fold_max_bounds (map row_id rest) (row_id r0)) as (Hge & Hall & _).
  destruct Hin as [<- | Hin]; [lia|].
  specialize (Hall (row_id r) (in_map row_id rest r Hin)). lia.
Qed.

(** It is 1 in an empty table and otherwise the successor of an id of the
    table. *)
Lemma next_rowid_attained (rs : list Row) :
  (rs = [] /\ next_rowid rs = 1%Z) \/
  exists r, In r rs /\ next_rowid rs = (row_id r + 1)%Z.
Proof.
  destruct rs as [|r0 rest]; [now left | right].
  cbn [next_rowid].
  destruct (fold_max_bounds (map row_id rest) (row_id r0)) as (_ & _ & [Heq | Hin]).
  - exists r0. split; [now left | lia].
  - apply in_map_iff in Hin as (r & Hr & Hin).
    exists r. split; [now right | lia].
Qed.

Lemma ids_upto_succ (n : nat) :
  ids_upto (S n) = ids_upto n ++ [Z.of_nat (S n)].
Proof.
  unfold ids_upto. rewrite seq_S, map_app. reflexivity.
Qed.

Lemma in_ids_upto (n : nat) (i : Z) :
  In i (ids_upto n) <-> (1 <= i <= Z.of_nat n)%Z.
Proof.
  unfold ids_upto. rewrite in_map_iff. split.
  - intros (k & <- & Hk). apply in_seq in Hk. lia.
  - intros Hi. exists (Z.to_nat i). split; [lia|]. apply in_seq. lia.
Qed.

Lemma next_rowid_upto (rs : list Row) :
  map row_id rs = ids_upto (List.length rs) ->
  next_rowid rs = Z.of_nat (S (List.length rs)).
Proof.
  intros Hids.
  destruct (next_rowid_attained rs) as [[-> ->] | (r & Hin & Hnext)];
    [reflexivity|].
  pose proof (next_rowid_above rs) as Habove.
  assert (Hr : In (row_id r) (ids_upto (List.length rs)))
    by (rewrite <- Hids; now apply in_map).
  apply in_ids_upto in Hr.
  assert (Hlast : In (Z.of_nat (List.length rs)) (map row_id rs)).
  { rewrite Hids. apply in_ids_upto.
    destruct rs; [destruct Hin | cbn [List.length]; lia]. }
  apply in_map_iff in Hlast as (r' & Hid & Hin').
  specialize (Habove r' Hin'). lia.
Qed.

(** The text [homepage] prints for the rows it fetched. *)
Lemma reprs_of_rows (rs : list Row) :
  reprs (map Student_of_row rs) =
  Some (map (fun r =>
               ("<Student " ++ NilZero.string_of_int (Z.to_int (row_id r)) ++ ">")%string)
          rs).
Proof.
  induction rs as [|r rs IH]; [reflexivity|].
  cbn [map reprs]. rewrite IH. reflexivity.
Qed.

Lemma handle_flag (eng : Engine) (req : Request) (w : World) :
  fst (try_trigger_before_first_request_functions (mkCtx req eng [] w)) = Return tt ->
  got_first_request (snd (handle eng req w)) = true.
Proof.
  intros Hhook.
  pose proof (hook_returned eng req w Hhook) as Hserved.
  destruct (before_request_parts eng req w) as (Hreq & _ & Hs & _).
  unfold handle. rewrite Hhook.
  destruct (route_cases req)
    as [Hr | [Hr | [[args Hr] | [[Hr Hm] | (Hr & Hp & Hm)]]]]; rewrite Hr.
  - exact Hserved.
  - exact Hserved.
  - destruct (Method_eqb (method req) OPTIONS); [exact Hserved|].
    destruct args as [|f [|f' args]]; exact Hserved.
  - destruct (Method_eqb (method req) OPTIONS); [exact Hserved|].
    change (view_functions "homepage" []) with (Some homepage).
    cbv beta iota. unfold homepage, bind, Student_query_all, print.
    destruct (students_db (world (before_request eng req w))); exact Hserved.
  - destruct Hm as [Hm | Hm]; rewrite Hm; [|exact Hserved].
    change (view_functions "add_student" []) with (Some add_student).
    cbn [Method_eqb]. cbv beta iota.
    rewrite add_student_post by (rewrite Hreq; exact Hm).
    destruct (add_student_try (before_request eng req w)) as [[u|e] c'] eqn:Hrun.
    + destruct (add_student_try_return _ c' u Hs Hrun) as (n & rs & _ & _ & Hw).
      cbn. rewrite Hw. exact Hserved.
    + cbn. now rewrite (add_student_try_raise _ c' e Hs Hrun).
Qed.

(** ** The claims *)

(** C1: for every POST to [/student] that is dispatched (the hook of the
    first request returned), when the [try] block of [add_student] (the
    lookup of the field, the construction of the Student, the add and the
    commit) raises an exception [e], the exception is caught: the handler
    returns the redirect to [/], a response that carries the location and
    nothing else, and what the request wrote to standard output is the one
    line [Exception when adding student: ] followed by [str(e)]. *)
Theorem add_student_swallows_exception
  (eng : Engine) (req : Request) (w : World) (e : Exception) (c' : Ctx) :
  method req = POST -> path req = "/student" ->
  fst (try_trigger_before_first_request_functions (mkCtx req eng [] w)) = Return tt ->
  add_student_try (before_request eng req w) = (Raise e, c') ->
  fst (handle eng req w) = Redirect302 "/" /\
  stdout (snd (handle eng req w)) =
    stdout w ++ [PrintLine ("Exception when adding student: " ++ str e)%string].
Proof.
  intros Hm Hp Hhook Hrun.
  rewrite (handle_post_raise eng req w e c' Hm Hp Hhook Hrun). split; reflexivity.
Qed.

(** C2, amended: for every non-empty string submitted as the field
    [student] by a POST to [/student] whose [try] block raises nothing (the
    commit succeeds), the next GET of [/] answers 200 with a page whose list
    includes that string. *)
Theorem post_then_get_lists_name
  (eng eng' : Engine) (req req' : Request) (w : World) (n : string) :
  method req = POST -> path req = "/student" ->
  form_lookup "student" (form req) = Some n ->
  n <> "" ->
  fst (add_student_try (before_request eng req w)) = Return tt ->
  method req' = GET -> path req' = "/" ->
  exists page,
    fst (handle eng' req' (snd (handle eng req w))) = Ok200 page /\
    In (Some n) page.
Proof.
  intros Hm Hp Hn _ Hret Hm' Hp'.
  destruct (handle_post_return eng req w Hm Hp Hret) as (n' & Hn' & Hrun).
  rewrite Hn in Hn'. injection Hn' as <-.
  rewrite Hrun. cbn [snd].
  rewrite handle_get;
    [| intros _; discriminate | assumption | assumption
     | apply hook_returns; now left].
  eexists. split; [reflexivity|].
  cbn. rewrite map_app. apply in_or_app. right. now left.
Qed.

(** C3, amended: for every N, N POSTs to [/student] whose [try] blocks raise
    nothing (the field is present and the commit succeeds) append exactly N
    rows, after the rows there were: exactly N rows in a table that was
    empty.  The rows appended hold the submitted strings in the order
    submitted, a string submitted twice twice: no POST deduplicates against
    or updates an existing row. *)
Theorem n_posts_append_n_rows (trace : list (Engine * Request)) (w : World) :
  all_inserted trace w = true ->
  exists added,
    rows (handle_all trace w) = rows w ++ added /\
    List.length added = List.length trace /\
    map row_name added = submitted trace /\
    List.length (rows (handle_all trace w)) =
      (List.length (rows w) + List.length trace)%nat.
Proof.
  intros Hall.
  destruct (handle_all_inserted trace w Hall) as (added & Hrows & Hnames).
  assert (Hlen : List.length added = List.length trace).
  { rewrite <- (length_map row_name added), Hnames. unfold submitted.
    apply length_map. }
  exists added. repeat split; try assumption.
  now rewrite Hrows, length_app, Hlen.
Qed.

(** C4, amended: a POST to [/student] that is dispatched (the hook of the
    first request returned: the table exists or could be created) and whose
    form has no field [student] is not answered with a server error: the
    lookup failure is caught by the [except] clause, which prints it, the
    table is left as it was, and the handler returns the redirect to [/]. *)
Theorem missing_field_redirects (eng : Engine) (req : Request) (w : World) :
  method req = POST -> path req = "/student" ->
  fst (try_trigger_before_first_request_functions (mkCtx req eng [] w)) = Return tt ->
  form_lookup "student" (form req) = None ->
  fst (handle eng req w) = Redirect302 "/" /\
  stdout (snd (handle eng req w)) =
    stdout w ++
    [PrintLine ("Exception when adding student: " ++
                str (BadRequestKeyError "student"))%string] /\
  rows (snd (handle eng req w)) = rows w.
Proof.
  intros Hm Hp Hhook Hmissing.
  destruct (before_request_parts eng req w) as (_ & _ & _ & Hrows & _).
  rewrite (handle_post_student eng req w Hm Hp Hhook), Hmissing.
  repeat split. exact Hrows.
Qed.

(** C5, amended: in every world reached from a new database by a sequence
    of requests, every row of the table has a name that is not NULL; the
    name is a string, which can be the empty string. *)
Theorem reachable_names_not_null (w : World) :
  reachable w ->
  Forall (fun r => exists n, row_name r = Some n) (rows w).
Proof.
  induction 1 as [|eng req w _ IH].
  - constructor.
  - destruct (handle_rows eng req w) as [Hsame | (n & _ & _ & Hnew)].
    + now rewrite Hsame.
    + rewrite Hnew. apply Forall_app. split; [exact IH|].
      constructor; [|constructor]. now exists n.
Qed.

(** C6: for every POST to [/student] whose [try] block raises (in the
    lookup, the construction, the add or the commit), the table after the
    request is the table the handler found: no row was added, removed or
    modified.  The rows are those of before the request, and so is the whole
    database once the application has served its first request (the first
    request creates the table, empty, before the handler runs). *)
Theorem insert_failure_keeps_table
  (eng : Engine) (req : Request) (w : World) (e : Exception) (c' : Ctx) :
  method req = POST -> path req = "/student" ->
  add_student_try (before_request eng req w) = (Raise e, c') ->
  rows (snd (handle eng req w)) = rows w /\
  students_db (snd (handle eng req w)) =
    students_db (world (before_request eng req w)) /\
  (got_first_request w = true ->
   students_db (snd (handle eng req w)) = students_db w).
Proof.
  intros Hm Hp Hrun.
  destruct (before_request_parts eng req w) as (_ & _ & _ & Hrows & _).
  destruct (fst (try_trigger_before_first_request_functions (mkCtx req eng [] w)))
    as [[]|e0] eqn:Hhook.
  - rewrite (handle_post_raise eng req w e c' Hm Hp Hhook Hrun).
    cbn [snd students_db]. repeat split.
    + exact Hrows.
    + intros Hserved. now rewrite (before_request_served eng req w Hserved).
  - rewrite (handle_hook_raised eng req w e0 Hhook). cbn [snd].
    destruct (hook_raised eng req w e0 Hhook) as (-> & _). repeat split.
Qed.

(** C7, amended: a GET of [/] that is dispatched (the hook of the first
    request returned: the table exists or could be created) fetches every
    row of the table in the order of the table and answers 200 with a page
    that lists exactly their names, in that order; it leaves the rows as
    they were.  On an empty database (a table just created, or a table
    without rows) the page lists nobody and the answer is still 200. *)
Theorem homepage_lists_all_names (eng : Engine) (req : Request) (w : World) :
  consistent w -> method req = GET -> path req = "/" ->
  fst (try_trigger_before_first_request_functions (mkCtx req eng [] w)) = Return tt ->
  fst (handle eng req w) = Ok200 (map row_name (rows w)) /\
  rows (snd (handle eng req w)) = rows w /\
  (rows w = [] -> fst (handle eng req w) = Ok200 []).
Proof.
  intros Hc Hm Hp Hhook. rewrite (handle_get eng req w Hc Hm Hp Hhook).
  cbn [fst snd]. repeat split. intros Hempty. now rewrite Hempty.
Qed.

(** C8: for every request, whatever its method and path, and every row of
    the table before it, the row is in the table after it, with the same id
    and the same name; the table after the request is the table of before
    followed by the rows the request added. *)
Theorem existing_rows_kept (eng : Engine) (req : Request) (w : World) (r : Row) :
  In r (rows w) ->
  In r (rows (snd (handle eng req w))) /\
  exists added, rows (snd (handle eng req w)) = rows w ++ added.
Proof.
  intros Hin.
  destruct (handle_rows eng req w) as [Hsame | (n & _ & _ & Hnew)].
  - rewrite Hsame. split; [exact Hin|]. exists []. now rewrite app_nil_r.
  - rewrite Hnew. split; [apply in_or_app; now left|]. eauto.
Qed.

(** C9: when a POST to [/student] has the field [student] and its insert
    goes through, the row it appends holds the submitted string itself,
    whatever the string: no trimming, no escaping, no truncation to 255
    characters and no check that it is not empty stands between the form and
    the table. *)
Theorem submitted_name_stored_verbatim
  (eng : Engine) (req : Request) (w : World) (n : string) :
  method req = POST -> path req = "/student" ->
  form_lookup "student" (form req) = Some n ->
  fst (add_student_try (before_request eng req w)) = Return tt ->
  rows (snd (handle eng req w)) =
    rows w ++ [mkRow (next_rowid (rows w)) (Some n)].
Proof.
  intros Hm Hp Hn Hret.
  destruct (handle_post_return eng req w Hm Hp Hret) as (n' & Hn' & Hrun).
  rewrite Hn in Hn'. injection Hn' as <-. now rewrite Hrun.
Qed.

(** C10, amended: the response of a POST to [/student] that is dispatched
    (the hook of the first request returned) is constant: any two such
    requests, whatever their forms, their engines and the worlds they find,
    hence whether their inserts succeeded or failed, are answered with the
    same response, the redirect to [/]. *)
Theorem add_student_response_constant
  (eng1 eng2 : Engine) (req1 req2 : Request) (w1 w2 : World) :
  method req1 = POST -> path req1 = "/student" ->
  method req2 = POST -> path req2 = "/student" ->
  fst (try_trigger_before_first_request_functions (mkCtx req1 eng1 [] w1)) = Return tt ->
  fst (try_trigger_before_first_request_functions (mkCtx req2 eng2 [] w2)) = Return tt ->
  fst (handle eng1 req1 w1) = fst (handle eng2 req2 w2) /\
  fst (handle eng1 req1 w1) = Redirect302 "/".
Proof.
  intros Hm1 Hp1 Hm2 Hp2 Hhook1 Hhook2.
  rewrite (handle_post_student eng1 req1 w1 Hm1 Hp1 Hhook1).
  rewrite (handle_post_student eng2 req2 w2 Hm2 Hp2 Hhook2).
  split; reflexivity.
Qed.

(** ** Further properties *)

(** X1: in every world reached from a new database, the ids of the rows
    are 1, 2, ..., n in table order, n the number of rows: the primary key
    is unique, and the k-th student stored has the id k. *)
Theorem reachable_ids_consecutive (w : World) :
  reachable w ->
  map row_id (rows w) = ids_upto (List.length (rows w)).
Proof.
  induction 1 as [|eng req w _ IH].
  - reflexivity.
  - destruct (handle_rows eng req w) as [Hsame | (n & _ & _ & Hnew)].
    + now rewrite Hsame.
    + rewrite Hnew, map_app, length_app. cbn [map List.length row_id].
      rewrite (next_rowid_upto _ IH), Nat.add_1_r, ids_upto_succ.
      now rewrite <- IH.
Qed.

(** X2: whatever the table holds, a request keeps the primary key unique:
    when no two rows share an id before a request, no two rows share an id
    after it. *)
Theorem handle_keeps_ids_unique (eng : Engine) (req : Request) (w : World) :
  NoDup (map row_id (rows w)) ->
  NoDup (map row_id (rows (snd (handle eng req w)))).
Proof.
  intros Hnodup.
  destruct (handle_rows eng req w) as [Hsame | (n & _ & _ & Hnew)].
  - now rewrite Hsame.
  - rewrite Hnew, map_app. cbn [map row_id].
    apply NoDup_app; [exact Hnodup | repeat constructor; intros [] |].
    intros i Hold [<- | []].
    apply in_map_iff in Hold as (r & Hid & Hin).
    pose proof (next_rowid_above (rows w) r Hin). lia.
Qed.

(** X3: the hook of the first request.  Until the application got a first
    request through it, [setup] runs before a request is dispatched,
    whatever the method and the path (a request answered 404 runs it too).
    When the table exists or the database can be written, the table exists
    afterwards, with the rows the database had followed by what the request
    added, and the hook will not run again.  When the table is missing and
    the database cannot be written, [setup] raises: the request is answered
    500, no view runs, nothing changes, and the next request runs the hook
    again. *)
Theorem first_request_runs_setup (eng : Engine) (req : Request) (w : World) :
  got_first_request w = false ->
  (students_db w <> None \/ eng = Healthy ->
   exists added,
     students_db (snd (handle eng req w)) = Some (rows w ++ added) /\
     got_first_request (snd (handle eng req w)) = true) /\
  (students_db w = None -> forall m, eng = Failing m ->
   handle eng req w = (respond req InternalServerError500, w)).
Proof.
  intros Hfirst. split.
  - intros Hcan.
    assert (Hhook : fst (try_trigger_before_first_request_functions
                           (mkCtx req eng [] w)) = Return tt)
      by (apply hook_returns; now right).
    assert (Hc : consistent w) by (intros Hserved; congruence).
    pose proof (handle_consistent eng req w Hc) as Hc'.
    pose proof (handle_flag eng req w Hhook) as Hflag.
    specialize (Hc' Hflag).
    assert (Hdb : students_db (snd (handle eng req w)) =
                  Some (rows (snd (handle eng req w)))).
    { unfold rows. destruct (students_db (snd (handle eng req w))); congruence. }
    rewrite Hdb, Hflag.
    destruct (handle_rows eng req w) as [Hsame | (n & _ & _ & Hnew)].
    + exists []. now rewrite Hsame, app_nil_r.
    + rewrite Hnew. eauto.
  - intros Hdb m ->.
    apply (handle_hook_raised (Failing m) req w (OperationalError m CREATE_TABLE)).
    rewrite hook_cases, Hfirst, Hdb. reflexivity.
Qed.

(** X4: the two routes allow their own methods only.  A POST to [/] and a
    GET of [/student], once past the hook, are answered 405: no view runs,
    nothing is printed and the rows are left as they were, whatever the form
    holds. *)
Theorem wrong_method_runs_no_view (eng : Engine) (req : Request) (w : World) :
  fst (try_trigger_before_first_request_functions (mkCtx req eng [] w)) = Return tt ->
  (path req = "/" /\ method req = POST) \/
  (path req = "/student" /\ method req = GET) ->
  fst (handle eng req w) = MethodNotAllowed405 /\
  stdout (snd (handle eng req w)) = stdout w /\
  rows (snd (handle eng req w)) = rows w.
Proof.
  intros Hhook Hcase.
  destruct (before_request_parts eng req w) as (_ & _ & _ & Hrows & Hout).
  rewrite (handle_method_not_allowed eng req w Hhook)
    by (destruct Hcase as [[Hp Hm] | [Hp Hm]]; auto).
  unfold respond. cbn [fst snd].
  destruct Hcase as [[_ ->] | [_ ->]]; auto.
Qed.

(** X5: a GET of [/] that is dispatched prints the list of the students
    it fetched, once: one student for each row, in table order.  The text
    printed is the repr of the list, which shows of each student the id
    and nothing else. *)
Theorem homepage_prints_students (eng : Engine) (req : Request) (w : World) :
  consistent w -> method req = GET -> path req = "/" ->
  fst (try_trigger_before_first_request_functions (mkCtx req eng [] w)) = Return tt ->
  stdout (snd (handle eng req w)) =
    stdout w ++ [PrintStudents (map Student_of_row (rows w))] /\
  printed (PrintStudents (map Student_of_row (rows w))) =
    Some ("[" ++
          String.concat ", "
            (map (fun r =>
                    "<Student " ++ NilZero.string_of_int (Z.to_int (row_id r)) ++ ">")
               (rows w)) ++
          "]")%string.
Proof.
  intros Hc Hm Hp Hhook. rewrite (handle_get eng req w Hc Hm Hp Hhook).
  split; [reflexivity|].
  cbn [printed]. unfold list_repr. now rewrite reprs_of_rows.
Qed.

(** X6: a POST to [/student] that is dispatched writes to standard output
    exactly when its [try] block raised: a successful insert prints nothing,
    a failed one prints one line, so the console tells the two apart
    although the response does not. *)
Theorem add_student_prints_iff_raised (eng : Engine) (req : Request) (w : World) :
  method req = POST -> path req = "/student" ->
  fst (try_trigger_before_first_request_functions (mkCtx req eng [] w)) = Return tt ->
  (stdout (snd (handle eng req w)) = stdout w <->
   returned (fst (add_student_try (before_request eng req w))) = true) /\
  (returned (fst (add_student_try (before_request eng req w))) = false ->
   exists line, stdout (snd (handle eng req w)) = stdout w ++ [PrintLine line]).
Proof.
  intros Hm Hp Hhook.
  destruct (add_student_try (before_request eng req w)) as [[[]|e] c'] eqn:Hrun.
  - destruct (handle_post_return eng req w Hm Hp) as (n & _ & Hhandle);
      [now rewrite Hrun|].
    rewrite Hhandle. cbn. repeat split; auto. discriminate.
  - rewrite (handle_post_raise eng req w e c' Hm Hp Hhook Hrun). cbn. split.
    + split; [|discriminate]. intros Heq. now apply app_one_neq in Heq.
    + intros _. eauto.
Qed.

(** X7: of the form of a POST to [/student] only the first value of the
    field [student] counts: two requests whose forms agree on it, whatever
    other fields and further values of [student] they carry, get the same
    response and leave the same world. *)
Theorem add_student_reads_first_student_only
  (eng : Engine) (req1 req2 : Request) (w : World) :
  method req1 = POST -> path req1 = "/student" ->
  method req2 = POST -> path req2 = "/student" ->
  form_lookup "student" (form req1) = form_lookup "student" (form req2) ->
  handle eng req1 w = handle eng req2 w.
Proof.
  intros Hm1 Hp1 Hm2 Hp2 Hform.
  destruct (fst (try_trigger_before_first_request_functions (mkCtx req1 eng [] w)))
    as [[]|e] eqn:Hhook1.
  - assert (Hhook2 : fst (try_trigger_before_first_request_functions
                            (mkCtx req2 eng [] w)) = Return tt).
    { rewrite hook_cases in *.
      destruct w as [[rs|] out [|]], eng; cbn in *; congruence. }
    rewrite (handle_post_student eng req1 w Hm1 Hp1 Hhook1).
    rewrite (handle_post_student eng req2 w Hm2 Hp2 Hhook2).
    now rewrite Hform, (before_request_world eng req1 req2 w).
  - assert (Hhook2 : fst (try_trigger_before_first_request_functions
                            (mkCtx req2 eng [] w)) = Raise e).
    { rewrite hook_cases in *.
      destruct w as [[rs|] out [|]], eng; cbn in *; congruence. }
    rewrite (handle_hook_raised eng req1 w e Hhook1).
    rewrite (handle_hook_raised eng req2 w e Hhook2).
    unfold respond. now rewrite Hm1, Hm2.
Qed.

(** X8: in a world whose table exists or is about to be created, the
    insert of a POST to [/student] fails in two cases only, a form without
    the field [student] and a commit the engine refuses: no submitted string
    violates the NOT NULL constraint and no insert of [add_student] violates
    the primary key, whatever the table holds. *)
Theorem insert_fails_only_without_field_or_engine
  (eng : Engine) (req : Request) (w : World) :
  consistent w -> method req = POST -> path req = "/student" ->
  (returned (fst (add_student_try (before_request eng req w))) = true <->
   form_lookup "student" (form req) <> None /\ eng = Healthy).
Proof.
  intros Hc Hm Hp.
  destruct (before_request_parts eng req w) as (Hreq & Heng & Hs & _).
  destruct (fst (try_trigger_before_first_request_functions (mkCtx req eng [] w)))
    as [[]|e0] eqn:Hhook.
  - pose proof (add_student_try_cases _ Hs) as Hrun.
    rewrite Hreq, Heng, (before_request_table eng req w Hc Hhook) in Hrun.
    destruct (form_lookup "student" (form req)) as [n|].
    + destruct eng as [|m]; rewrite Hrun; cbn.
      * split; [intros _; split; [discriminate | reflexivity] | reflexivity].
      * split; [discriminate | intros [_ Heq]; discriminate Heq].
    + rewrite Hrun. cbn.
      split; [discriminate | intros [Hnone _]; now destruct Hnone].
  - destruct (hook_raised eng req w e0 Hhook) as (_ & _ & _ & m & -> & _).
    split.
    + intros Hret. apply returned_unit, try_returned_hook in Hret. congruence.
    + intros [_ Heq]. discriminate Heq.
Qed.

(** X9: over any run of requests, whatever their methods, paths, forms and
    engines, the table only grows at its end: the rows of before are the
    first rows of after, unchanged and in place, and the rows added are at
    most as many as the POSTs to [/student] of the run. *)
Theorem run_only_appends (trace : list (Engine * Request)) :
  forall w,
  exists added,
    rows (handle_all trace w) = rows w ++ added /\
    (List.length added <= post_students trace)%nat.
Proof.
  unfold post_students.
  induction trace as [|[eng req] rest IH]; intros w.
  - exists []. cbn. rewrite app_nil_r. split; [reflexivity | lia].
  - destruct (handle_rows_bound eng req w) as (a1 & Hrows1 & Hlen1).
    destruct (IH (snd (handle eng req w))) as (a2 & Hrows2 & Hlen2).
    exists (a1 ++ a2). cbn [handle_all filter snd].
    rewrite Hrows2, Hrows1, <- app_assoc. split; [reflexivity|].
    rewrite length_app.
    destruct (is_post_student req); cbn [List.length]; lia.
Qed.

(** X10: the redirect of a POST to [/student] leads back to the list:
    whatever the POST that was dispatched did, in a world whose table exists
    or has just been created, a GET of the location it returned is answered
    200 by [homepage], which fetches every row the table then holds. *)
Theorem redirect_leads_to_homepage
  (eng eng' : Engine) (req : Request) (w : World) :
  consistent w -> method req = POST -> path req = "/student" ->
  fst (try_trigger_before_first_request_functions (mkCtx req eng [] w)) = Return tt ->
  exists location page,
    fst (handle eng req w) = Redirect302 location /\
    let w' := snd (handle eng req w) in
    fst (handle eng' (mkRequest GET location []) w') = Ok200 page /\
    stdout (snd (handle eng' (mkRequest GET location []) w')) =
      stdout w' ++ [PrintStudents (map Student_of_row (rows w'))].
Proof.
  intros Hc Hm Hp Hhook.
  pose proof (handle_consistent eng req w Hc) as Hc'.
  pose proof (handle_flag eng req w Hhook) as Hflag.
  pose proof (handle_post_student eng req w Hm Hp Hhook) as Hhandle.
  exists "/", (map row_name (rows (snd (handle eng req w)))).
  split; [now rewrite Hhandle|].
  cbn zeta. rewrite handle_get; auto.
  apply hook_returns. now left.
Qed.

(** X11: [homepage] catches nothing.  When the table is missing after the
    first request was served, the query of a GET of [/] raises and the
    request is answered 500: no page is rendered, nothing is printed, and
    the table is not created again. *)
Theorem homepage_without_table_fails (eng : Engine) (req : Request) (w : World) :
  got_first_request w = true -> students_db w = None ->
  method req = GET -> path req = "/" ->
  handle eng req w = (InternalServerError500, w).
Proof.
  intros Hserved Hdb Hm Hp.
  rewrite (handle_homepage eng req w Hm Hp) by (apply hook_returns; now left).
  rewrite (before_request_served eng req w Hserved).
  unfold homepage, bind, Student_query_all. cbn. now rewrite Hdb.
Qed.

(** X12: [add_student] catches the same failure.  When the table is
    missing after the first request was served, a POST to [/student] with
    the field present is answered with the redirect to [/]; the exception
    of the INSERT (the driver's no such table: student, as SQLAlchemy words
    it) is printed after the prefix, and nothing is stored. *)
Theorem add_student_without_table_redirects
  (eng : Engine) (req : Request) (w : World) (n : string) :
  got_first_request w = true -> students_db w = None ->
  method req = POST -> path req = "/student" ->
  form_lookup "student" (form req) = Some n ->
  handle eng req w =
  (Redirect302 "/",
   mkWorld None
     (stdout w ++
      [PrintLine ("Exception when adding student: " ++
                  str (OperationalError "no such table: student"
                         (INSERT_INTO (Student_init n))))%string])
     true).
Proof.
  intros Hserved Hdb Hm Hp Hn.
  rewrite (handle_post_student eng req w Hm Hp) by (apply hook_returns; now left).
  rewrite Hn, (before_request_served eng req w Hserved). cbn [world].
  now rewrite Hdb.
Qed.

End App.

#[local] Existing Instance example_wording.

(** ** The claims at concrete requests *)

Lemma add_student_swallows_exception_witness :
  fst (handle locked post_alice with_alice) = Redirect302 "/" /\
  stdout (snd (handle locked post_alice with_alice)) =
    stdout with_alice ++
    [PrintLine ("Exception when adding student: " ++
                str (OperationalError "database is locked"
                       (INSERT_INTO (Student_init "Alice"))))%string].
Proof.
  exact (add_student_swallows_exception locked post_alice with_alice
           (OperationalError "database is locked" (INSERT_INTO (Student_init "Alice")))
           (set_session [Student_init "Alice"]
              (before_request locked post_alice with_alice))
           eq_refl eq_refl eq_refl eq_refl).
Defined.

(** C2, as stated, fails: Alice is submitted while the database cannot be
    written, and the page of the next GET lists nobody.  On a new database
    the hook raises and the POST is answered 500; on a database whose table
    exists the commit raises, the exception is swallowed and the POST is
    answered with the redirect. *)
Lemma post_then_get_counterexample :
  method post_alice = POST /\ path post_alice = "/student" /\
  form_lookup "student" (form post_alice) = Some "Alice" /\
  "Alice" <> "" /\
  fst (handle Healthy get_root (snd (handle locked post_alice fresh))) = Ok200 [] /\
  ~ In (Some "Alice") (@nil (option string)) /\
  fst (handle locked post_alice (mkWorld (Some []) [] true)) = Redirect302 "/" /\
  fst (handle Healthy get_root
         (snd (handle locked post_alice (mkWorld (Some []) [] true)))) = Ok200 [].
Proof.
  repeat split; try reflexivity.
  - discriminate.
  - intros [].
Qed.

Lemma post_then_get_lists_name_witness :
  exists page,
    fst (handle Healthy get_root (snd (handle Healthy post_alice fresh))) = Ok200 page /\
    In (Some "Alice") page.
Proof.
  apply (post_then_get_lists_name Healthy Healthy post_alice get_root fresh "Alice");
    try reflexivity.
  discriminate.
Defined.

(** C3, as stated, fails: one name submitted by one POST with the field
    present, to a database that cannot be written, leaves no row, be the
    database new or its table there and empty. *)
Lemma n_posts_counterexample :
  let trace := [(locked, post_alice)] in
  Forall (fun er => method (snd er) = POST /\ path (snd er) = "/student" /\
                    form_lookup "student" (form (snd er)) <> None) trace /\
  List.length trace = 1%nat /\
  rows fresh = [] /\
  List.length (rows (handle_all trace fresh)) = 0%nat /\
  List.length (rows (handle_all trace (mkWorld (Some []) [] true))) = 0%nat.
Proof.
  cbn. repeat split; try reflexivity.
  constructor; [|constructor]. cbn. repeat split. discriminate.
Qed.

Lemma n_posts_append_n_rows_witness :
  exists added,
    rows (handle_all [(Healthy, post_alice); (Healthy, post_student "Bob");
                      (Healthy, post_alice)] fresh) = rows fresh ++ added /\
    List.length added = 3%nat /\
    map row_name added = [Some "Alice"; Some "Bob"; Some "Alice"] /\
    List.length (rows (handle_all [(Healthy, post_alice); (Healthy, post_student "Bob");
                                   (Healthy, post_alice)] fresh)) = 3%nat.
Proof.
  exact (n_posts_append_n_rows
           [(Healthy, post_alice); (Healthy, post_student "Bob"); (Healthy, post_alice)]
           fresh eq_refl).
Defined.

(** C4, as stated, fails: the first request to a new database that cannot
    be written is answered 500 by the hook, also a POST to [/student]
    without the field: no handler runs, nothing is caught and there is no
    redirect. *)
Lemma missing_field_counterexample :
  method post_nothing = POST /\ path post_nothing = "/student" /\
  form_lookup "student" (form post_nothing) = None /\
  handle locked post_nothing fresh = (InternalServerError500, fresh).
Proof.
  repeat split.
Qed.

Lemma missing_field_redirects_witness :
  fst (handle locked post_nothing with_alice) = Redirect302 "/" /\
  stdout (snd (handle locked post_nothing with_alice)) =
    stdout with_alice ++
    [PrintLine ("Exception when adding student: " ++
                str (BadRequestKeyError "student"))%string] /\
  rows (snd (handle locked post_nothing with_alice)) = rows with_alice.
Proof.
  exact (missing_field_redirects locked post_nothing with_alice
           eq_refl eq_refl eq_refl eq_refl).
Defined.

(** C5, as stated, fails: a POST that submits the empty string inserts a
    row whose name is the empty string, in a world reached from a new
    database by that one request. *)
Lemma empty_name_counterexample :
  reachable (snd (handle Healthy (post_student "") fresh)) /\
  In (mkRow 1 (Some "")) (rows (snd (handle Healthy (post_student "") fresh))) /\
  row_name (mkRow 1 (Some "")) = Some "".
Proof.
  split; [apply reachable_handle, reachable_fresh|].
  split; [now left | reflexivity].
Qed.

Lemma reachable_names_not_null_witness :
  Forall (fun r => exists n, row_name r = Some n)
    (rows (snd (handle Healthy (post_student "Bob")
                  (snd (handle Healthy post_alice fresh))))).
Proof.
  apply reachable_names_not_null.
  apply reachable_handle, reachable_handle, reachable_fresh.
Defined.

Lemma insert_failure_keeps_table_witness :
  let w := snd (handle Healthy post_alice fresh) in
  rows (snd (handle locked (post_student "Bob") w)) = rows w /\
  students_db (snd (handle locked (post_student "Bob") w)) =
    students_db (world (before_request locked (post_student "Bob") w)) /\
  (got_first_request w = true ->
   students_db (snd (handle locked (post_student "Bob") w)) = students_db w).
Proof.
  exact (insert_failure_keeps_table locked (post_student "Bob")
           (snd (handle Healthy post_alice fresh))
           (OperationalError "database is locked" (INSERT_INTO (Student_init "Bob")))
           (set_session [Student_init "Bob"]
              (before_request locked (post_student "Bob")
                 (snd (handle Healthy post_alice fresh))))
           eq_refl eq_refl eq_refl).
Defined.

(** C7, as stated, fails: a GET of [/] on an empty database, a new one that
    cannot be written, is answered 500 by the hook and renders no page. *)
Lemma homepage_counterexample :
  method get_root = GET /\ path get_root = "/" /\ rows fresh = [] /\
  handle locked get_root fresh = (InternalServerError500, fresh).
Proof.
  repeat split.
Qed.

Lemma homepage_lists_all_names_witness :
  (let w := handle_all [(Healthy, post_alice); (Healthy, post_student "Bob")] fresh in
   fst (handle locked get_root w) = Ok200 [Some "Alice"; Some "Bob"] /\
   rows (snd (handle locked get_root w)) = rows w /\
   (rows w = [] -> fst (handle locked get_root w) = Ok200 [])) /\
  (fst (handle Healthy get_root fresh) = Ok200 (map row_name (rows fresh)) /\
   rows (snd (handle Healthy get_root fresh)) = rows fresh /\
   (rows fresh = [] -> fst (handle Healthy get_root fresh) = Ok200 [])).
Proof.
  split.
  - apply (homepage_lists_all_names locked get_root
             (handle_all [(Healthy, post_alice); (Healthy, post_student "Bob")] fresh));
      try reflexivity.
    intros _. discriminate.
  - apply (homepage_lists_all_names Healthy get_root fresh); try reflexivity.
    intros Hserved. discriminate Hserved.
Defined.

Lemma existing_rows_kept_witness :
  let w := snd (handle Healthy post_alice fresh) in
  In (mkRow 1 (Some "Alice")) (rows (snd (handle Healthy post_alice w))) /\
  exists added, rows (snd (handle Healthy post_alice w)) = rows w ++ added.
Proof.
  apply (existing_rows_kept Healthy post_alice
           (snd (handle Healthy post_alice fresh)) (mkRow 1 (Some "Alice"))).
  now left.
Defined.

Lemma submitted_name_stored_verbatim_witness :
  rows (snd (handle Healthy (post_student "") fresh)) =
    rows fresh ++ [mkRow (next_rowid (rows fresh)) (Some "")] /\
  rows (snd (handle Healthy (post_student " Al<i>ce ") fresh)) =
    rows fresh ++ [mkRow (next_rowid (rows fresh)) (Some " Al<i>ce ")] /\
  (name_length < String.length long_name)%nat /\
  rows (snd (handle Healthy (post_student long_name) fresh)) =
    rows fresh ++ [mkRow (next_rowid (rows fresh)) (Some long_name)].
Proof.
  split; [| split; [| split]].
  - exact (submitted_name_stored_verbatim Healthy (post_student "") fresh ""
             eq_refl eq_refl eq_refl eq_refl).
  - exact (submitted_name_stored_verbatim Healthy (post_student " Al<i>ce ") fresh
             " Al<i>ce " eq_refl eq_refl eq_refl eq_refl).
  - unfold name_length. cbn. lia.
  - exact (submitted_name_stored_verbatim Healthy (post_student long_name) fresh
             long_name eq_refl eq_refl eq_refl eq_refl).
Defined.

(** C10, as stated, fails: the same POST to [/student] is answered 500 on a
    new database that cannot be written (the hook raises) and with the
    redirect on one that can: the response tells the two apart. *)
Lemma response_constant_counterexample :
  method post_alice = POST /\ path post_alice = "/student" /\
  fst (handle locked post_alice fresh) = InternalServerError500 /\
  fst (handle Healthy post_alice fresh) = Redirect302 "/" /\
  fst (handle locked post_alice fresh) <> fst (handle Healthy post_alice fresh).
Proof.
  repeat split. discriminate.
Qed.

Lemma add_student_response_constant_witness :
  fst (handle Healthy post_alice fresh) = fst (handle locked post_nothing with_alice) /\
  fst (handle Healthy post_alice fresh) = Redirect302 "/".
Proof.
  exact (add_student_response_constant Healthy locked post_alice post_nothing
           fresh with_alice eq_refl eq_refl eq_refl eq_refl eq_refl eq_refl).
Defined.

(** ** The further properties at concrete requests *)

Lemma reachable_ids_consecutive_witness :
  map row_id (rows (handle_all [(Healthy, post_alice); (locked, post_alice);
                                (Healthy, get_root); (Healthy, post_student "Bob")]
                      fresh)) = [1%Z; 2%Z].
Proof.
  apply (reachable_ids_consecutive
           (handle_all [(Healthy, post_alice); (locked, post_alice);
                        (Healthy, get_root); (Healthy, post_student "Bob")] fresh)).
  cbn [handle_all].
  repeat apply reachable_handle. apply reachable_fresh.
Defined.

Lemma handle_keeps_ids_unique_witness :
  NoDup (map row_id
           (rows (snd (handle Healthy post_alice
                         (mkWorld (Some [mkRow 3 (Some "Eve"); mkRow 7 (Some "Dan")])
                            [] true))))).
Proof.
  apply handle_keeps_ids_unique. cbn.
  repeat constructor; cbn; intuition discriminate.
Defined.

Lemma first_request_runs_setup_witness :
  (exists added,
     students_db (snd (handle Healthy (mkRequest GET "/nowhere" []) fresh)) =
       Some (rows fresh ++ added) /\
     got_first_request (snd (handle Healthy (mkRequest GET "/nowhere" []) fresh)) = true) /\
  handle locked post_alice fresh = (respond post_alice InternalServerError500, fresh).
Proof.
  split.
  - apply (first_request_runs_setup Healthy (mkRequest GET "/nowhere" []) fresh eq_refl).
    now right.
  - exact (proj2 (first_request_runs_setup locked post_alice fresh eq_refl)
             eq_refl "database is locked" eq_refl).
Defined.

Lemma wrong_method_runs_no_view_witness :
  let req := mkRequest GET "/student" [("student", "Bob")] in
  fst (handle Healthy req with_alice) = MethodNotAllowed405 /\
  stdout (snd (handle Healthy req with_alice)) = stdout with_alice /\
  rows (snd (handle Healthy req with_alice)) = rows with_alice.
Proof.
  apply (wrong_method_runs_no_view Healthy
           (mkRequest GET "/student" [("student", "Bob")]) with_alice eq_refl).
  right. split; reflexivity.
Defined.

Lemma homepage_prints_students_witness :
  let w := handle_all [(Healthy, post_alice); (Healthy, post_student "Bob")] fresh in
  stdout (snd (handle Healthy get_root w)) =
    [PrintStudents [mkStudent (Some 1%Z) (Some "Alice");
                    mkStudent (Some 2%Z) (Some "Bob")]] /\
  printed (PrintStudents (map Student_of_row (rows w))) =
    Some "[<Student 1>, <Student 2>]".
Proof.
  apply (homepage_prints_students Healthy get_root
           (handle_all [(Healthy, post_alice); (Healthy, post_student "Bob")] fresh));
    try reflexivity.
  intros _. discriminate.
Defined.

Lemma add_student_prints_iff_raised_witness :
  (stdout (snd (handle locked post_alice with_alice)) = stdout with_alice <->
   returned (fst (add_student_try (before_request locked post_alice with_alice))) = true) /\
  (returned (fst (add_student_try (before_request locked post_alice with_alice))) = false ->
   exists line,
     stdout (snd (handle locked post_alice with_alice)) =
       stdout with_alice ++ [PrintLine line]).
Proof.
  exact (add_student_prints_iff_raised locked post_alice with_alice
           eq_refl eq_refl eq_refl).
Defined.

Lemma add_student_reads_first_student_only_witness :
  handle Healthy post_twice fresh = handle Healthy post_alice fresh /\
  rows (snd (handle Healthy post_twice fresh)) = [mkRow 1 (Some "Alice")].
Proof.
  split; [|reflexivity].
  exact (add_student_reads_first_student_only Healthy post_twice post_alice fresh
           eq_refl eq_refl eq_refl eq_refl eq_refl).
Defined.

Lemma insert_fails_only_without_field_or_engine_witness :
  returned (fst (add_student_try (before_request Healthy post_alice with_alice))) = true <->
  form_lookup "student" (form post_alice) <> None /\ Healthy = Healthy.
Proof.
  apply (insert_fails_only_without_field_or_engine Healthy post_alice with_alice);
    try reflexivity.
  intros _. discriminate.
Defined.

Lemma redirect_leads_to_homepage_witness :
  exists location page,
    fst (handle locked post_alice with_alice) = Redirect302 location /\
    let w' := snd (handle locked post_alice with_alice) in
    fst (handle Healthy (mkRequest GET location []) w') = Ok200 page /\
    stdout (snd (handle Healthy (mkRequest GET location []) w')) =
      stdout w' ++ [PrintStudents (map Student_of_row (rows w'))].
Proof.
  apply (redirect_leads_to_homepage locked Healthy post_alice with_alice);
    try reflexivity.
  intros _. discriminate.
Defined.

Lemma homepage_without_table_fails_witness :
  handle Healthy get_root table_lost = (InternalServerError500, table_lost).
Proof.
  exact (homepage_without_table_fails Healthy get_root table_lost
           eq_refl eq_refl eq_refl eq_refl).
Defined.

Lemma add_student_without_table_redirects_witness :
  handle Healthy post_alice table_lost =
  (Redirect302 "/",
   mkWorld None
     [PrintLine ("Exception when adding student: " ++
                 str (OperationalError "no such table: student"
                        (INSERT_INTO (Student_init "Alice"))))%string] true).
Proof.
  exact (add_student_without_table_redirects Healthy post_alice table_lost "Alice"
           eq_refl eq_refl eq_refl eq_refl eq_refl).
Defined.
